(** * MRP label merger: [app.py] and its properties

    [app.py] reads the sheet "Item Summary" of an uploaded workbook, and for
    every row appends the label file [mrp_label/{id}.pdf] to a [PdfMerger]
    as many times as the row's quantity says.  This file embeds the script
    as Rocq functions and proves the properties its specification states
    about it.

    Modelling choices.
    - A spreadsheet cell, as pandas hands it to the script, is [NaN] (an
      empty cell), a number, or a text.  Numbers are rationals: every finite
      floating-point value is one, and the script only compares a number
      with zero and truncates it.
    - The accumulators of the loop ([merger], [total_pages],
      [processed_items], [missing_pdfs], [errors]) are the fields of one
      record that the loop body threads through a small state-and-exception
      monad; [continue] and a raised exception are its two early exits.
    - The label folder and the PDF library are the environment: which files
      exist, what pages they hold, and whether [merger.append] raises.
      Python's [int] on a text is a parameter too.
    - The calls that only draw the page (progress bar, status text, metrics)
      are taken to succeed and are not modelled. *)

From Stdlib Require Import ZArith QArith Bool List String Ascii Lia.
From Stdlib Require Import DecimalString.
Import ListNotations.
Open Scope string_scope.
Open Scope Z_scope.

(** ** Cells and the Python primitives applied to them *)

Inductive cell : Type :=
| NaN : cell
| Num : Q -> cell
| Str : string -> cell.

(** [pd.isna(c)] and [pd.notna(c)]. *)
Definition isna (c : cell) : bool :=
  match c with NaN => true | _ => false end.

Definition notna (c : cell) : bool := negb (isna c).

(** [c <= 0]: a text cannot be compared with an integer. *)
Definition le0 (c : cell) : string + bool :=
  match c with
  | NaN => inr false
  | Num x => inr (Qle_bool x 0)
  | Str _ => inl "'<=' not supported between instances of 'str' and 'int'"
  end.

(** [c != 0]. *)
Definition ne0 (c : cell) : bool :=
  match c with
  | Num x => negb (Qeq_bool x 0)
  | _ => true
  end.

(** [int(x)] on a number truncates toward zero. *)
Definition truncate (x : Q) : Z := Z.quot (Qnum x) (Zpos (Qden x)).

(** [str(n)] for an integer. *)
Definition str_of_Z (n : Z) : string := NilZero.string_of_int (Z.to_int n).

(** ** The label folder and the PDF library *)

Definition page : Type := string.

Record label_store : Type := {
  (** [label_folder.exists()] *)
  folder_exists : bool;
  (** [(label_folder / f"{id}.pdf").exists()] *)
  pdf_exists : Z -> bool;
  (** the pages of [{id}.pdf] *)
  pdf_pages : Z -> list page;
  (** whether [merger.append] of [{id}.pdf] raises, given what the merger
      already holds, and with which description *)
  append_failure : list page -> Z -> option string
}.

(** ** The accumulators of the run *)

Record merge_state : Type := {
  merger : list page;
  total_pages : Z;
  processed_items : Z;
  missing_pdfs : list Z;
  errors : list string
}.

Definition initial_state : merge_state :=
  {| merger := []; total_pages := 0; processed_items := 0;
     missing_pdfs := []; errors := [] |}.

(** ** Control flow of the loop body *)

Inductive ctl (A : Type) : Type :=
| Ret : A -> ctl A
| Continue : ctl A
| Raise : string -> ctl A.

Arguments Ret {A} _.
Arguments Continue {A}.
Arguments Raise {A} _.

Definition M (A : Type) : Type := merge_state -> ctl A * merge_state.

Definition ret {A} (a : A) : M A := fun s => (Ret a, s).

Definition bind {A B} (m : M A) (k : A -> M B) : M B :=
  fun s =>
    match m s with
    | (Ret a, s') => k a s'
    | (Continue, s') => (Continue, s')
    | (Raise e, s') => (Raise e, s')
    end.

Definition continue_ {A} : M A := fun s => (Continue, s).

Definition raise {A} (e : string) : M A := fun s => (Raise e, s).

(** A Python expression that evaluates or raises. *)
Definition eval {A} (v : string + A) : M A :=
  match v with inl e => raise e | inr a => ret a end.

Definition modify (f : merge_state -> merge_state) : M unit :=
  fun s => (Ret tt, f s).

Notation "x <- m ;; k" := (bind m (fun x => k))
  (at level 61, m at next level, right associativity).
Notation "m ;;; k" := (bind m (fun _ => k))
  (at level 61, right associativity).

(** [for _ in range(n): body] *)
Fixpoint for_range (n : nat) (body : M unit) : M unit :=
  match n with
  | O => ret tt
  | S n' => body ;;; for_range n' body
  end.

(** ** Rows *)

Record row : Type := {
  idx : Z;
  item_id : cell;
  variation_id : cell;
  quantity : cell
}.

(** ** Python string methods used by the script *)

(** [sep.join(parts)] *)
Definition join (sep : string) (parts : list string) : string :=
  String.concat sep parts.

Definition lower_ascii (c : ascii) : ascii :=
  let n := nat_of_ascii c in
  if (65 <=? n)%nat && (n <=? 90)%nat then ascii_of_nat (n + 32) else c.

(** [s.lower()], on ASCII text. *)
Fixpoint lower (s : string) : string :=
  match s with
  | EmptyString => EmptyString
  | String c t => String (lower_ascii c) (lower t)
  end.

(** The ASCII characters for which [str.isspace] holds. *)
Definition is_space (c : ascii) : bool :=
  let n := nat_of_ascii c in
  ((9 <=? n)%nat && (n <=? 13)%nat)
  || ((28 <=? n)%nat && (n <=? 32)%nat).

Fixpoint lstrip (s : string) : string :=
  match s with
  | EmptyString => EmptyString
  | String c t => if is_space c then lstrip t else s
  end.

Fixpoint rstrip (s : string) : string :=
  match s with
  | EmptyString => EmptyString
  | String c t =>
      match rstrip t with
      | EmptyString => if is_space c then EmptyString else String c EmptyString
      | t' => String c t'
      end
  end.

(** [s.strip()] *)
Definition strip (s : string) : string := rstrip (lstrip s).

(** [s.replace(old, new)] for a non-empty [old]: the occurrences of [old]
    are found from left to right and do not overlap.  [skip] counts the
    characters of a matched occurrence still to be passed over. *)
Fixpoint replace_from (old new : string) (skip : nat) (s : string) : string :=
  match s with
  | EmptyString => EmptyString
  | String c t =>
      match skip with
      | S k => replace_from old new k t
      | O =>
          if prefix old s
          then new ++ replace_from old new (String.length old - 1) t
          else String c (replace_from old new 0 t)
      end
  end.

Definition replace (old new s : string) : string := replace_from old new 0 s.

(** ** The uploaded workbook *)

Record sheet : Type := {
  columns : list string;
  data : list (list cell)
}.

Record upload : Type := {
  name : string;
  sheets : list (string * sheet)
}.

(** [excel_file.sheet_names] *)
Definition sheet_names (f : upload) : list string := map fst (sheets f).

(** [name in names] *)
Definition mem (x : string) (l : list string) : bool :=
  existsb (String.eqb x) l.

(** [pd.read_excel(uploaded_file, sheet_name=n)], once the sheet is known
    to be there. *)
Definition read_excel (f : upload) (n : string) : sheet :=
  match find (fun p => String.eqb (fst p) n) (sheets f) with
  | Some p => snd p
  | None => {| columns := []; data := [] |}
  end.

(** [{col.lower().strip(): col for col in df.columns}], as a lookup: a later
    column replaces an earlier one with the same key. *)
Definition column_mapping (cols : list string) (key : string) : option string :=
  find (fun col => String.eqb (strip (lower col)) key) (rev cols).

Definition required_columns : list (string * string) :=
  [("item id", "Item ID"); ("variation id", "Variation ID");
   ("quantity", "Quantity")].

(** Lines 37-44. *)
Definition missing_columns (cols : list string) : list string :=
  map snd
    (filter (fun rc => match column_mapping cols (fst rc) with
                       | Some _ => false
                       | None => true
                       end)
            required_columns).

(** The position of the column a spreadsheet header was matched to. *)
Fixpoint position (col : string) (cols : list string) : nat :=
  match cols with
  | [] => O
  | c :: cs => if String.eqb c col then O else S (position col cs)
  end.

(** [row[display]] after the renaming of lines 52-56: the cell under the
    header matched to the required column [key]. *)
Definition cell_of (cols : list string) (key : string) (cells : list cell) : cell :=
  match column_mapping cols key with
  | Some col => nth (position col cols) cells NaN
  | None => NaN
  end.

(** The rows of the frame with their index labels, which [read_excel]
    numbers from 0: the row labelled [i] is line [i + 2] of the sheet, after
    the header line. *)
Fixpoint rows_from (cols : list string) (i : Z) (d : list (list cell)) : list row :=
  match d with
  | [] => []
  | cells :: d' =>
      {| idx := i;
         item_id := cell_of cols "item id" cells;
         variation_id := cell_of cols "variation id" cells;
         quantity := cell_of cols "quantity" cells |}
      :: rows_from cols (i + 1) d'
  end.

(** [df.dropna(subset=[...], how='all')]: a row goes when the three cells
    are all empty; the others keep their labels. *)
Definition dropna (df : list row) : list row :=
  filter (fun r => negb (isna (item_id r) && isna (variation_id r)
                         && isna (quantity r))) df.

(** What the page shows. *)
Inductive message : Type :=
| st_error : string -> message
| st_info : string -> message
| st_warning : string -> message.

(** How a run of the script ends. *)
Inductive result : Type :=
| Instructions : result
| Stopped : list message -> result
| Preview : list row -> result
| Complete : merge_state -> string -> bool -> result.

Section Pipeline.

(** Python's [int] on a [str]: the integer, or the description of the
    [ValueError]. *)
Variable int_of_str : string -> string + Z.

Variable store : label_store.

(** [int(c)] *)
Definition py_int (c : cell) : string + Z :=
  match c with
  | NaN => inl "cannot convert float NaN to integer"
  | Num x => inr (truncate x)
  | Str s => int_of_str s
  end.

(** [pd.isna(quantity) or quantity <= 0] *)
Definition skip_quantity (q : cell) : string + bool :=
  if isna q then inr true else le0 q.

(** Lines 100-103: which identifier names the label file. *)
Definition use_id (r : row) : string + Z :=
  if notna (variation_id r) && ne0 (variation_id r)
  then py_int (variation_id r)
  else py_int (item_id r).

(** [merger.append(str(pdf_path))] *)
Definition merger_append (id : Z) : M unit :=
  fun s =>
    match append_failure store (merger s) id with
    | Some e => (Raise e, s)
    | None =>
        (Ret tt,
         {| merger := merger s ++ pdf_pages store id;
            total_pages := total_pages s;
            processed_items := processed_items s;
            missing_pdfs := missing_pdfs s;
            errors := errors s |})
    end.

Definition incr_total_pages : M unit :=
  modify (fun s =>
    {| merger := merger s;
       total_pages := total_pages s + 1;
       processed_items := processed_items s;
       missing_pdfs := missing_pdfs s;
       errors := errors s |}).

Definition incr_processed_items : M unit :=
  modify (fun s =>
    {| merger := merger s;
       total_pages := total_pages s;
       processed_items := processed_items s + 1;
       missing_pdfs := missing_pdfs s;
       errors := errors s |}).

Definition missing_append (id : Z) : M unit :=
  modify (fun s =>
    {| merger := merger s;
       total_pages := total_pages s;
       processed_items := processed_items s;
       missing_pdfs := missing_pdfs s ++ [id];
       errors := errors s |}).

Definition errors_append (e : string) (s : merge_state) : merge_state :=
  {| merger := merger s;
     total_pages := total_pages s;
     processed_items := processed_items s;
     missing_pdfs := missing_pdfs s;
     errors := errors s ++ [e] |}.

(** Lines 88-118: the body of the [try]. *)
Definition try_body (r : row) : M unit :=
  skip <- eval (skip_quantity (quantity r)) ;;
  if (skip : bool) then continue_ else
  quantity <- eval (py_int (quantity r)) ;;
  use_id <- eval (use_id r) ;;
  if negb (pdf_exists store use_id)
  then missing_append use_id ;;; continue_
  else
    for_range (Z.to_nat quantity)
      (merger_append use_id ;;; incr_total_pages) ;;;
    incr_processed_items.

(** [f"Row {idx + 2}: {str(e)}"] *)
Definition row_error (i : Z) (e : string) : string :=
  "Row " ++ str_of_Z (i + 2) ++ ": " ++ e.

(** Lines 87-121: one iteration, with its exception handler. *)
Definition process_row (r : row) (s : merge_state) : merge_state :=
  match try_body r s with
  | (Raise e, s') => errors_append (row_error (idx r) e) s'
  | (_, s') => s'
  end.

(** Line 86: [for idx, row in df.iterrows()]. *)
Definition process_rows (df : list row) (s : merge_state) : merge_state :=
  fold_left (fun acc r => process_row r acc) df s.

(** Lines 132-133. *)
Definition output_filename (uploaded_name : string) : string :=
  let excel_filename := replace ".xlsx" "" uploaded_name in
  "mrp_labels_" ++ excel_filename ++ ".pdf".

(** The script.  [button] is what [st.button] returns.  A completed run
    carries the accumulators, the suggested file name and whether the
    download is offered. *)
Definition app (uploaded_file : option upload) (button : bool) : result :=
  match uploaded_file with
  | None => Instructions
  | Some f =>
      if negb (mem "Item Summary" (sheet_names f)) then
        Stopped
          [st_error "❌ Error: Sheet 'Item Summary' not found in the Excel file!";
           st_info ("Available sheets: " ++ join ", " (sheet_names f))]
      else
        let sh := read_excel f "Item Summary" in
        match missing_columns (columns sh) with
        | _ :: _ as missing =>
            Stopped
              [st_error ("❌ Error: Missing required columns: "
                         ++ join ", " missing);
               st_info ("Available columns: " ++ join ", " (columns sh))]
        | [] =>
            let df := dropna (rows_from (columns sh) 0 (data sh)) in
            if negb button then Preview df
            else if negb (folder_exists store) then
              Stopped
                [st_error
                   "❌ Error: 'mrp_label' folder not found in the current directory!"]
            else
              let s := process_rows df initial_state in
              Complete s (output_filename (name f)) (0 <? total_pages s)
        end
  end.

(** ** Notions the properties are stated with *)

(** [n] copies of a file's pages, one after the other. *)
Definition copies (n : nat) (ps : list page) : list page :=
  List.concat (repeat ps n).

(** The row has a quantity above zero. *)
Definition positive_quantity (r : row) : bool :=
  match quantity r with
  | Num x => negb (Qle_bool x 0)
  | _ => false
  end.

(** The row's quantity as an integer. *)
Definition int_quantity (r : row) : Z :=
  match quantity r with
  | Num x => truncate x
  | _ => 0
  end.

(** The row's identifier resolves to a label file that is there. *)
Definition label_found (r : row) : bool :=
  match use_id r with
  | inr id => pdf_exists store id
  | inl _ => false
  end.

(** The rows that get their label merged, as the specification words it. *)
Definition merged_row (r : row) : bool :=
  positive_quantity r && label_found r.

Definition sum (l : list Z) : Z := fold_right Z.add 0 l.

(** [old] occurs somewhere in [s]. *)
Definition occurs (old s : string) : Prop :=
  exists a b, s = a ++ old ++ b.

(** ** Notions for the accounts of a run *)

(** The row leaves the [try] at the quantity test of line 93. *)
Definition skipped_row (r : row) : bool :=
  match quantity r with
  | NaN => true
  | Num x => Qle_bool x 0
  | Str _ => false
  end.

(** What the row adds to [missing_pdfs]. *)
Definition missing_id (r : row) : list Z :=
  if positive_quantity r then
    match use_id r with
    | inr id => if pdf_exists store id then [] else [id]
    | inl _ => []
    end
  else [].

(** The pages the row adds when its file is there and every [append]
    passes. *)
Definition row_block (r : row) : list page :=
  if positive_quantity r then
    match use_id r with
    | inr id =>
        if pdf_exists store id
        then copies (Z.to_nat (int_quantity r)) (pdf_pages store id)
        else []
    | inl _ => []
    end
  else [].

(** The outcomes of one iteration of the loop of lines 86-121. *)
Inductive row_step (r : row) (s : merge_state) : merge_state -> Prop :=
| step_skipped :
    skipped_row r = true ->
    row_step r s s
| step_raised (e : string) :
    skipped_row r = false ->
    (positive_quantity r = false \/ use_id r = inl e) ->
    row_step r s (errors_append (row_error (idx r) e) s)
| step_missing (id : Z) :
    positive_quantity r = true ->
    use_id r = inr id ->
    pdf_exists store id = false ->
    row_step r s
      {| merger := merger s;
         total_pages := total_pages s;
         processed_items := processed_items s;
         missing_pdfs := missing_pdfs s ++ [id];
         errors := errors s |}
| step_merged (id : Z) :
    positive_quantity r = true ->
    use_id r = inr id ->
    pdf_exists store id = true ->
    row_step r s
      {| merger := (merger s
                    ++ copies (Z.to_nat (int_quantity r)) (pdf_pages store id))%list;
         total_pages := total_pages s + Z.of_nat (Z.to_nat (int_quantity r));
         processed_items := processed_items s + 1;
         missing_pdfs := missing_pdfs s;
         errors := errors s |}
| step_cut_short (id : Z) (k : nat) (e : string) :
    positive_quantity r = true ->
    use_id r = inr id ->
    pdf_exists store id = true ->
    (k < Z.to_nat (int_quantity r))%nat ->
    append_failure store (merger s ++ copies k (pdf_pages store id))%list id
    = Some e ->
    row_step r s
      {| merger := (merger s ++ copies k (pdf_pages store id))%list;
         total_pages := total_pages s + Z.of_nat k;
         processed_items := processed_items s;
         missing_pdfs := missing_pdfs s;
         errors := errors s ++ [row_error (idx r) e] |}.

(** Line 124: [(idx + 1) / len(df)], the value that line 125 hands to the
    progress bar after a row that did not leave by [continue].  It is taken
    as a rational: the script divides in floating point, which keeps the
    order of such a quotient with 0 and 1. *)
Definition progress (r : row) (df : list row) : Q :=
  (idx r + 1) # Pos.of_nat (List.length df).

(** The row is one that [dropna] removes. *)
Definition blank_row (r : row) : bool :=
  isna (item_id r) && isna (variation_id r) && isna (quantity r).

(** The text consists of white space only. *)
Fixpoint all_space (s : string) : bool :=
  match s with
  | EmptyString => true
  | String c t => is_space c && all_space t
  end.

End Pipeline.

(** ** Sample inputs *)

(** A reading of [int] on a text that accepts plain decimal numerals. *)
Definition sample_int (s : string) : string + Z :=
  match NilZero.int_of_string s with
  | Some d => inr (Z.of_int d)
  | None => inl ("invalid literal for int() with base 10: '" ++ s ++ "'")
  end.

(** A folder that holds [7413.pdf] and [55.pdf], both readable. *)
Definition sample_store : label_store :=
  {| folder_exists := true;
     pdf_exists := fun id => (id =? 7413) || (id =? 55);
     pdf_pages := fun id => ["label " ++ str_of_Z id];
     append_failure := fun _ _ => None |}.

(** The same folder on a machine where the merger cannot take a third
    file: once it holds two pages, [append] raises. *)
Definition full_store : label_store :=
  {| folder_exists := true;
     pdf_exists := fun id => (id =? 7413) || (id =? 55);
     pdf_pages := fun id => ["label " ++ str_of_Z id];
     append_failure := fun held _ =>
       if (2 <=? List.length held)%nat
       then Some "[Errno 24] Too many open files: 'mrp_label/7413.pdf'"
       else None |}.

(** A folder whose [7413.pdf] is there but is not a PDF. *)
Definition corrupt_store : label_store :=
  {| folder_exists := true;
     pdf_exists := fun id => id =? 7413;
     pdf_pages := fun id => ["label " ++ str_of_Z id];
     append_failure := fun _ _ => Some "EOF marker not found" |}.

Definition sample_row (i : Z) (item var qty : cell) : row :=
  {| idx := i; item_id := item; variation_id := var; quantity := qty |}.

(** Three rows: an item without variation, a variation, and a row with
    quantity zero. *)
Definition sample_rows : list row :=
  [sample_row 0 (Num 7413) (Num 0) (Num 3);
   sample_row 1 (Num 100) (Num 55) (Num 1);
   sample_row 2 (Num 9) (Num 0) (Num 0)].

(** A workbook whose headers differ from the required ones in case and
    blanks, with a blank row and a row that names no item. *)
Definition item_summary : sheet :=
  {| columns := [" item ID"; "Name"; "Variation id "; "QUANTITY"];
     data :=
       [[Num 7413; Str "tea"; Num 0; Num 3];
        [NaN; NaN; NaN; NaN];
        [Num 100; Str "mug"; Num 55; Num 1];
        [Num 9; Str "cup"; Num 0; Num 0];
        [Str "n/a"; Str "pot"; NaN; Num (5 # 2)]] |}.

Definition full_workbook : upload :=
  {| name := "orders.xlsx";
     sheets := [("Notes", {| columns := []; data := [] |});
                ("Item Summary", item_summary)] |}.

(** The accumulators after the sample workbook. *)
Definition full_workbook_state : merge_state :=
  {| merger := ["label 7413"; "label 7413"; "label 7413"; "label 55"];
     total_pages := 4;
     processed_items := 2;
     missing_pdfs := [];
     errors := ["Row 6: invalid literal for int() with base 10: 'n/a'"] |}.

(** Two lines with no blank one between them. *)
Definition filled_lines : list (list cell) :=
  [[Num 7413; Str "tea"; Num 0; Num 3];
   [Num 100; Str "mug"; Num 55; Num 1]].

(** A workbook whose only line asks for a label that is not in the sample
    folder. *)
Definition unmatched_workbook : upload :=
  {| name := "orders.xlsx";
     sheets :=
       [("Item Summary",
         {| columns := ["Item ID"; "Variation ID"; "Quantity"];
            data := [[Num 100; Num 0; Num 2]] |})] |}.

(** A workbook without the sheet the script wants. *)
Definition sample_workbook : upload :=
  {| name := "orders.xlsx";
     sheets := [("Sheet1", {| columns := []; data := [] |});
                ("Data", {| columns := []; data := [] |})] |}.

(** * Properties *)

Open Scope list_scope.

Section Properties.

Variable int_of_str : string -> string + Z.
Variable store : label_store.

Local Abbreviation py_int := (py_int int_of_str).
Local Abbreviation use_id := (use_id int_of_str).
Local Abbreviation try_body := (try_body int_of_str store).
Local Abbreviation process_row := (process_row int_of_str store).
Local Abbreviation process_rows := (process_rows int_of_str store).
Local Abbreviation label_found := (label_found int_of_str store).
Local Abbreviation merged_row := (merged_row int_of_str store).

(** One pass of the quantity loop of lines 114-116. *)
Local Abbreviation merge_once id := (merger_append store id ;;; incr_total_pages).

Ltac unfold_monad :=
  unfold bind, eval, ret, raise, continue_, modify,
    merger_append, incr_total_pages, incr_processed_items, missing_append.

Lemma bind_run {A B} (m : M A) (k : A -> M B) (s : merge_state) :
  bind m k s =
  match m s with
  | (Ret a, s') => k a s'
  | (Continue, s') => (Continue, s')
  | (Raise e, s') => (Raise e, s')
  end.
Proof. reflexivity. Qed.

Lemma state_eta (s : merge_state) :
  {| merger := merger s; total_pages := total_pages s;
     processed_items := processed_items s;
     missing_pdfs := missing_pdfs s; errors := errors s |} = s.
Proof. destruct s; reflexivity. Qed.

Lemma copies_S (n : nat) (ps : list page) :
  copies (S n) ps = ps ++ copies n ps.
Proof. reflexivity. Qed.

(** *** The quantity loop *)

(** When no [append] raises, [n] rounds add [n] copies and count [n]. *)
Lemma merge_loop_succeeds (id : Z) (n : nat) :
  forall s,
    (forall j, (j < n)%nat ->
       append_failure store (merger s ++ copies j (pdf_pages store id)) id = None) ->
    for_range n (merge_once id) s =
    (Ret tt,
     {| merger := merger s ++ copies n (pdf_pages store id);
        total_pages := total_pages s + Z.of_nat n;
        processed_items := processed_items s;
        missing_pdfs := missing_pdfs s;
        errors := errors s |}).
Proof.
  induction n as [|n IH]; intros s H.
  - simpl. unfold ret, copies. simpl.
    rewrite app_nil_r, Z.add_0_r, state_eta. reflexivity.
  - assert (H0 := H O ltac:(lia)).
    unfold copies in H0; simpl in H0; rewrite app_nil_r in H0.
    simpl for_range. unfold bind at 1. unfold bind at 1.
    unfold merger_append at 1. rewrite H0.
    unfold incr_total_pages at 1, modify at 1. cbv beta iota.
    rewrite IH.
    + simpl. rewrite copies_S, <- app_assoc.
      f_equal. f_equal. lia.
    + intros j Hj. simpl. rewrite <- app_assoc, <- copies_S.
      apply H. lia.
Qed.

(** When the first [k] rounds pass and the next [append] raises, the loop
    stops there: the [k] copies and their count stay. *)
Lemma merge_loop_fails (id : Z) (e : string) (k : nat) :
  forall n s,
    (k < n)%nat ->
    (forall j, (j < k)%nat ->
       append_failure store (merger s ++ copies j (pdf_pages store id)) id = None) ->
    append_failure store (merger s ++ copies k (pdf_pages store id)) id = Some e ->
    for_range n (merge_once id) s =
    (Raise e,
     {| merger := merger s ++ copies k (pdf_pages store id);
        total_pages := total_pages s + Z.of_nat k;
        processed_items := processed_items s;
        missing_pdfs := missing_pdfs s;
        errors := errors s |}).
Proof.
  induction k as [|k IH]; intros n s Hk Hok Hfail.
  - destruct n as [|n]; [lia|].
    unfold copies in *; simpl in *. rewrite app_nil_r in *.
    unfold bind at 1. unfold bind at 1. unfold merger_append at 1.
    rewrite Hfail. rewrite Z.add_0_r, state_eta. reflexivity.
  - destruct n as [|n]; [lia|].
    assert (H0 := Hok O ltac:(lia)).
    unfold copies in H0; simpl in H0; rewrite app_nil_r in H0.
    simpl for_range. unfold bind at 1. unfold bind at 1.
    unfold merger_append at 1. rewrite H0.
    unfold incr_total_pages at 1, modify at 1. cbv beta iota.
    rewrite (IH n).
    + simpl. rewrite copies_S, <- app_assoc.
      f_equal. f_equal. lia.
    + lia.
    + intros j Hj. simpl. rewrite <- app_assoc, <- copies_S.
      apply Hok. lia.
    + simpl. rewrite <- app_assoc, <- copies_S. exact Hfail.
Qed.

(** Whatever the library does, the loop ends after some [k <= n] rounds that
    passed, with [k] copies added and counted, and it ends early only by an
    exception. *)
Lemma merge_loop_inv (id : Z) (n : nat) :
  forall s c s',
    for_range n (merge_once id) s = (c, s') ->
    exists k,
      (k <= n)%nat /\
      merger s' = merger s ++ copies k (pdf_pages store id) /\
      total_pages s' = total_pages s + Z.of_nat k /\
      processed_items s' = processed_items s /\
      missing_pdfs s' = missing_pdfs s /\
      errors s' = errors s /\
      ((c = Ret tt /\ k = n) \/ (exists e, c = Raise e /\ (k < n)%nat)).
Proof.
  induction n as [|n IH]; intros s c s' H.
  - simpl in H. unfold ret in H. inversion H; subst.
    exists O. unfold copies; simpl. rewrite app_nil_r, Z.add_0_r.
    repeat split; auto.
  - simpl for_range in H. unfold bind at 1 in H. unfold bind at 1 in H.
    unfold merger_append at 1 in H.
    destruct (append_failure store (merger s) id) as [e|] eqn:Ha.
    + inversion H; subst. exists O. unfold copies; simpl.
      rewrite app_nil_r, Z.add_0_r. repeat split; auto; try lia.
      right. exists e. split; [reflexivity | lia].
    + unfold incr_total_pages at 1, modify at 1 in H. cbv beta iota in H.
      apply IH in H. destruct H as (k & Hk & Hm & Ht & Hp & Hmi & He & Hc).
      simpl in *. exists (S k).
      rewrite copies_S, app_assoc.
      repeat split; auto; try lia.
      destruct Hc as [[-> ->] | (e & -> & Hlt)].
      * left; auto.
      * right. exists e. split; [reflexivity | lia].
Qed.

(** *** One row *)

Lemma truncate_nonneg (x : Q) : Qle_bool x 0 = false -> 0 <= truncate x.
Proof.
  unfold Qle_bool, truncate. simpl. intros H.
  apply Z.leb_gt in H. apply Z.quot_pos; lia.
Qed.

Lemma truncate_fraction (x : Q) : (0 < x)%Q -> (x < 1)%Q -> truncate x = 0.
Proof.
  unfold Qlt, truncate. simpl. intros H0 H1.
  apply Z.quot_small. lia.
Qed.

Lemma Qle_bool_false (x : Q) : (0 < x)%Q -> Qle_bool x 0 = false.
Proof.
  intros H. destruct (Qle_bool x 0) eqn:E; [|reflexivity].
  apply Qle_bool_iff in E. exfalso. apply (Qlt_not_le _ _ H E).
Qed.

(** The body of the [try] on a row whose quantity is a number above zero
    and whose identifier resolves: the file is missing, or the quantity loop
    runs. *)
Lemma try_body_positive (r : row) (x : Q) (id : Z) (s : merge_state) :
  quantity r = Num x -> Qle_bool x 0 = false -> use_id r = inr id ->
  try_body r s =
  if negb (pdf_exists store id)
  then (missing_append id ;;; continue_) s
  else (for_range (Z.to_nat (truncate x)) (merge_once id) ;;;
        incr_processed_items) s.
Proof.
  intros Hq Hx Hid. unfold try_body.
  rewrite Hq. unfold skip_quantity. simpl isna. cbv iota.
  unfold le0. rewrite Hx.
  unfold eval at 1. unfold bind at 1. unfold ret at 1. cbv beta iota.
  simpl py_int.
  unfold eval at 1. unfold bind at 1. unfold ret at 1. cbv beta iota.
  rewrite Hid.
  unfold eval at 1. unfold bind at 1. unfold ret at 1. cbv beta iota.
  destruct (negb (pdf_exists store id)); reflexivity.
Qed.

(** A row adds to the error list at most one entry, at its end. *)
Lemma process_row_errors (r : row) (s : merge_state) :
  exists l, errors (process_row r s) = errors s ++ l.
Proof.
  unfold process_row.
  destruct (quantity r) as [|x|t] eqn:Hq.
  - unfold try_body. rewrite Hq. simpl.
    exists []. now rewrite app_nil_r.
  - destruct (Qle_bool x 0) eqn:Hx.
    + unfold try_body. rewrite Hq.
      unfold skip_quantity, le0. simpl isna. cbv iota. rewrite Hx. simpl.
      exists []. now rewrite app_nil_r.
    + destruct (use_id r) as [e|id] eqn:Hid.
      * unfold try_body. rewrite Hq.
        unfold skip_quantity, le0. simpl isna. cbv iota. rewrite Hx.
        unfold_monad. simpl. rewrite Hid. simpl. eauto.
      * rewrite (try_body_positive r x id s Hq Hx Hid).
        destruct (negb (pdf_exists store id)).
        -- unfold_monad. simpl. exists []. now rewrite app_nil_r.
        -- unfold bind at 1.
           destruct (for_range _ _ s) as [c s'] eqn:Hloop.
           apply merge_loop_inv in Hloop.
           destruct Hloop as (k & _ & _ & _ & _ & _ & He & Hc).
           destruct Hc as [[-> _] | (e & -> & _)].
           ++ unfold_monad. simpl. exists []. now rewrite app_nil_r, He.
           ++ simpl. rewrite He. eauto.
  - unfold try_body. rewrite Hq. unfold_monad. simpl. eauto.
Qed.

Lemma process_rows_app (pre post : list row) (s : merge_state) :
  process_rows (pre ++ post) s = process_rows post (process_rows pre s).
Proof. apply fold_left_app. Qed.

Lemma process_rows_cons (r : row) (df : list row) (s : merge_state) :
  process_rows (r :: df) s = process_rows df (process_row r s).
Proof. reflexivity. Qed.

Lemma process_rows_errors (df : list row) :
  forall s, exists l, errors (process_rows df s) = errors s ++ l.
Proof.
  induction df as [|r df IH]; intros s.
  - exists []. simpl. now rewrite app_nil_r.
  - rewrite process_rows_cons.
    destruct (IH (process_row r s)) as [l2 H2].
    destruct (process_row_errors r s) as [l1 H1].
    exists (l1 ++ l2). now rewrite H2, H1, app_assoc.
Qed.

Lemma app_eq_self {A} (l m : list A) : l ++ m = l -> m = [].
Proof.
  intros H. apply (f_equal (@List.length A)) in H.
  rewrite length_app in H. destruct m; [reflexivity | simpl in H; lia].
Qed.

(** C3: the identifier that names the label file is the variation id when
    that cell is filled and is not zero, and the item id when the variation
    cell is empty or zero; either is taken through [int]. *)
Theorem effective_id_selection (r : row) :
  (variation_id r <> NaN ->
   (forall x, variation_id r = Num x -> ~ (x == 0)%Q) ->
   use_id r = py_int (variation_id r))
  /\
  (variation_id r = NaN \/ (exists x, variation_id r = Num x /\ (x == 0)%Q) ->
   use_id r = py_int (item_id r)).
Proof.
  unfold use_id, notna. split.
  - intros Hna Hnz. destruct (variation_id r) as [|x|t]; simpl.
    + now contradiction Hna.
    + destruct (Qeq_bool x 0) eqn:E; [|reflexivity].
      apply Qeq_bool_iff in E. now contradiction (Hnz x eq_refl).
    + reflexivity.
  - intros [-> | (x & -> & Hx)]; simpl.
    + reflexivity.
    + apply Qeq_bool_iff in Hx. now rewrite Hx.
Qed.

(** C4: a row whose quantity cell is empty, or holds a number that is at most
    zero, leaves the [try] by [continue] with every accumulator as it was: no
    page, no processed item, no error entry. *)
Theorem nonpositive_quantity_skips_row (r : row) (s : merge_state) :
  quantity r = NaN \/ (exists x, quantity r = Num x /\ (x <= 0)%Q) ->
  try_body r s = (Continue, s) /\ process_row r s = s.
Proof.
  intros H.
  assert (Hbody : try_body r s = (Continue, s)).
  { unfold try_body. destruct H as [-> | (x & -> & Hx)].
    - reflexivity.
    - unfold skip_quantity, le0. simpl isna. cbv iota.
      apply Qle_bool_iff in Hx. rewrite Hx. reflexivity. }
  split; [exact Hbody|]. unfold process_row. now rewrite Hbody.
Qed.

(** C9: a row whose quantity lies strictly between 0 and 1 and whose label
    file is there passes the [<= 0] test, is truncated to 0, appends nothing,
    and still counts as one processed item. *)
Theorem fractional_quantity_counts_as_processed
    (r : row) (x : Q) (id : Z) (s : merge_state) :
  quantity r = Num x -> (0 < x)%Q -> (x < 1)%Q ->
  use_id r = inr id -> pdf_exists store id = true ->
  truncate x = 0 /\
  process_row r s =
  {| merger := merger s;
     total_pages := total_pages s;
     processed_items := processed_items s + 1;
     missing_pdfs := missing_pdfs s;
     errors := errors s |}.
Proof.
  intros Hq H0 H1 Hid Hex.
  pose proof (truncate_fraction x H0 H1) as Ht.
  split; [exact Ht|].
  unfold process_row.
  rewrite (try_body_positive r x id s Hq (Qle_bool_false x H0) Hid).
  rewrite Hex, Ht. reflexivity.
Qed.


(** The ways the body of the [try] raises: a quantity that is a text, an
    identifier that [int] rejects, and an [append] that fails (for the last
    see [merge_loop_fails]). *)
Lemma text_quantity_raises (r : row) (t : string) (s : merge_state) :
  quantity r = Str t ->
  try_body r s =
  (Raise "'<=' not supported between instances of 'str' and 'int'", s).
Proof. intros Hq. unfold try_body. rewrite Hq. reflexivity. Qed.

Lemma bad_id_raises (r : row) (x : Q) (e : string) (s : merge_state) :
  quantity r = Num x -> (0 < x)%Q -> use_id r = inl e ->
  try_body r s = (Raise e, s).
Proof.
  intros Hq H0 Hid. unfold try_body. rewrite Hq.
  unfold skip_quantity, le0. simpl isna. cbv iota.
  rewrite (Qle_bool_false x H0).
  unfold_monad. simpl. rewrite Hid. reflexivity.
Qed.


(** C10: when the row's file is there and [append] raises in round [k + 1]
    of the quantity loop after [k] rounds that passed, the [k] copies stay in
    the merger and [total_pages] keeps its [k] increments, while
    [processed_items] is not incremented and the row gets its entry in
    [errors]. *)
Theorem partial_merge_is_kept
    (r : row) (x : Q) (id : Z) (k : nat) (e : string) (s : merge_state) :
  quantity r = Num x -> (0 < x)%Q ->
  use_id r = inr id -> pdf_exists store id = true ->
  (k < Z.to_nat (truncate x))%nat ->
  (forall j, (j < k)%nat ->
     append_failure store (merger s ++ copies j (pdf_pages store id)) id = None) ->
  append_failure store (merger s ++ copies k (pdf_pages store id)) id = Some e ->
  process_row r s =
  {| merger := merger s ++ copies k (pdf_pages store id);
     total_pages := total_pages s + Z.of_nat k;
     processed_items := processed_items s;
     missing_pdfs := missing_pdfs s;
     errors := errors s ++ [row_error (idx r) e] |}.
Proof.
  intros Hq H0 Hid Hex Hk Hok Hfail.
  unfold process_row.
  rewrite (try_body_positive r x id s Hq (Qle_bool_false x H0) Hid).
  rewrite Hex. simpl negb. cbv iota.
  unfold bind at 1.
  rewrite (merge_loop_fails id e k _ s Hk Hok Hfail).
  reflexivity.
Qed.

(** *** The whole run *)

Lemma snoc_neq_self {A} (l : list A) (a : A) : l ++ [a] <> l.
Proof. intros H. apply app_eq_self in H. discriminate. Qed.

(** A row that raises nothing adds its integer quantity to [total_pages] if
    it is merged, and nothing otherwise. *)
Lemma process_row_total (r : row) (s : merge_state) :
  errors (process_row r s) = errors s ->
  total_pages (process_row r s) =
  total_pages s + (if merged_row r then int_quantity r else 0).
Proof.
  unfold merged_row, positive_quantity, int_quantity, label_found, process_row.
  destruct (quantity r) as [|x|t] eqn:Hq.
  - intros _. unfold try_body. rewrite Hq. simpl. lia.
  - destruct (Qle_bool x 0) eqn:Hx.
    + intros _. unfold try_body. rewrite Hq.
      unfold skip_quantity, le0. simpl isna. cbv iota. rewrite Hx. simpl. lia.
    + destruct (use_id r) as [e|id] eqn:Hid.
      * unfold try_body. rewrite Hq.
        unfold skip_quantity, le0. simpl isna. cbv iota. rewrite Hx.
        unfold_monad. simpl. rewrite Hid. simpl.
        intros H. now apply snoc_neq_self in H.
      * rewrite (try_body_positive r x id s Hq Hx Hid).
        destruct (pdf_exists store id); simpl negb; cbv iota.
        -- rewrite bind_run.
           destruct (for_range _ _ s) as [c s'] eqn:Hloop.
           apply merge_loop_inv in Hloop.
           destruct Hloop as (k & _ & _ & Ht & _ & _ & He & Hc).
           destruct Hc as [[-> ->] | (e & -> & _)].
           ++ intros _. unfold_monad. simpl. rewrite Ht.
              pose proof (truncate_nonneg x Hx). simpl. lia.
           ++ simpl. rewrite He. intros H. now apply snoc_neq_self in H.
        -- intros _. unfold_monad. simpl. lia.
  - unfold try_body. rewrite Hq. unfold_monad. simpl.
    intros H. now apply snoc_neq_self in H.
Qed.

Lemma process_rows_total (df : list row) :
  forall s,
    errors (process_rows df s) = errors s ->
    total_pages (process_rows df s) =
    total_pages s + sum (map int_quantity (filter merged_row df)).
Proof.
  induction df as [|r df IH]; intros s H.
  - simpl. lia.
  - rewrite process_rows_cons in *.
    destruct (process_row_errors r s) as [l1 H1].
    destruct (process_rows_errors df (process_row r s)) as [l2 H2].
    assert (Hnil : l1 ++ l2 = []).
    { apply (app_eq_self (errors s)).
      now rewrite app_assoc, <- H1, <- H2. }
    apply app_eq_nil in Hnil. destruct Hnil as [-> ->].
    rewrite app_nil_r in H1, H2.
    rewrite (IH _ H2), (process_row_total r s H1).
    simpl filter. destruct (merged_row r); simpl; lia.
Qed.

(** C1: in a run in which every row is processed, that is, none is cut short
    by an exception, [total_pages] ends as the sum of the integer quantities
    of the rows that have a quantity above zero and an identifier resolving
    to a label file that is there; the other rows add nothing. *)
Theorem total_pages_is_sum_of_quantities (df : list row) :
  errors (process_rows df initial_state) = [] ->
  total_pages (process_rows df initial_state) =
  sum (map int_quantity
         (filter (fun r => positive_quantity r && label_found r) df)).
Proof.
  intros H. now rewrite (process_rows_total df initial_state H).
Qed.

(** A row only ever adds pages at the end of the merger. *)
Lemma process_row_merger (r : row) (s : merge_state) :
  exists added, merger (process_row r s) = merger s ++ added.
Proof.
  unfold process_row.
  destruct (quantity r) as [|x|t] eqn:Hq.
  - unfold try_body. rewrite Hq. simpl. exists []. now rewrite app_nil_r.
  - destruct (Qle_bool x 0) eqn:Hx.
    + unfold try_body. rewrite Hq.
      unfold skip_quantity, le0. simpl isna. cbv iota. rewrite Hx. simpl.
      exists []. now rewrite app_nil_r.
    + destruct (use_id r) as [e|id] eqn:Hid.
      * unfold try_body. rewrite Hq.
        unfold skip_quantity, le0. simpl isna. cbv iota. rewrite Hx.
        unfold_monad. simpl. rewrite Hid. simpl.
        exists []. now rewrite app_nil_r.
      * rewrite (try_body_positive r x id s Hq Hx Hid).
        destruct (negb (pdf_exists store id)).
        -- unfold_monad. simpl. exists []. now rewrite app_nil_r.
        -- unfold bind at 1.
           destruct (for_range _ _ s) as [c s'] eqn:Hloop.
           apply merge_loop_inv in Hloop.
           destruct Hloop as (k & _ & Hm & _ & _ & _ & _ & Hc).
           destruct Hc as [[-> _] | (e & -> & _)]; simpl; eauto.
  - unfold try_body. rewrite Hq. unfold_monad. simpl.
    exists []. now rewrite app_nil_r.
Qed.

Lemma process_rows_merger (df : list row) :
  forall s, exists added, merger (process_rows df s) = merger s ++ added.
Proof.
  induction df as [|r df IH]; intros s.
  - exists []. simpl. now rewrite app_nil_r.
  - rewrite process_rows_cons.
    destruct (IH (process_row r s)) as [l2 H2].
    destruct (process_row_merger r s) as [l1 H1].
    exists (l1 ++ l2). now rewrite H2, H1, app_assoc.
Qed.


(** A run that gets past the checks ends with the accumulators of the row
    loop, started from the empty state on the frame without its blank rows. *)
Lemma app_completes (f : upload) :
  mem "Item Summary" (sheet_names f) = true ->
  missing_columns (columns (read_excel f "Item Summary")) = [] ->
  folder_exists store = true ->
  app int_of_str store (Some f) true =
  Complete
    (process_rows
       (dropna (rows_from (columns (read_excel f "Item Summary")) 0
                  (data (read_excel f "Item Summary"))))
       initial_state)
    (output_filename (name f))
    (0 <? total_pages
            (process_rows
               (dropna (rows_from (columns (read_excel f "Item Summary")) 0
                          (data (read_excel f "Item Summary"))))
               initial_state)).
Proof.
  intros Hs Hc Hf. unfold app. rewrite Hs, Hc, Hf. reflexivity.
Qed.

(** C7: when the workbook has no sheet named "Item Summary" the script stops
    right after the check, before any row is read: it shows the error and the
    names of the sheets the workbook does have, whether or not the button was
    pressed. *)
Theorem missing_sheet_stops_run (f : upload) (button : bool) :
  ~ In "Item Summary"%string (sheet_names f) ->
  app int_of_str store (Some f) button =
  Stopped
    [st_error "❌ Error: Sheet 'Item Summary' not found in the Excel file!";
     st_info ("Available sheets: " ++ join ", " (sheet_names f))%string].
Proof.
  intros H. unfold app.
  assert (Hmem : mem "Item Summary" (sheet_names f) = false).
  { unfold mem. destruct (existsb _ _) eqn:E; [|reflexivity].
    apply existsb_exists in E. destruct E as (n & Hin & Heq).
    apply String.eqb_eq in Heq. subst n. contradiction. }
  now rewrite Hmem.
Qed.

End Properties.

(** *** The suggested file name *)

Lemma replace_without_occurrence (base : string) :
  ~ occurs ".xlsx" base ->
  replace ".xlsx" "" (base ++ ".xlsx")%string = base.
Proof.
  unfold replace. induction base as [|c t IH]; intros Hno.
  - reflexivity.
  - assert (Ht : ~ occurs ".xlsx" t).
    { intros (a & b & ->). apply Hno. now exists (String c a), b. }
    change (String c t ++ ".xlsx")%string with (String c (t ++ ".xlsx")).
    cbn [replace_from].
    destruct (prefix ".xlsx" (String c (t ++ ".xlsx"))) eqn:E.
    + exfalso. cbn [prefix] in E.
      destruct (ascii_dec "." c) as [<-|]; [|discriminate].
      destruct t as [|c1 t1]; [discriminate|].
      cbn [append prefix] in E.
      destruct (ascii_dec "x" c1) as [<-|]; [|discriminate].
      destruct t1 as [|c2 t2]; [discriminate|].
      cbn [append prefix] in E.
      destruct (ascii_dec "l" c2) as [<-|]; [|discriminate].
      destruct t2 as [|c3 t3]; [discriminate|].
      cbn [append prefix] in E.
      destruct (ascii_dec "s" c3) as [<-|]; [|discriminate].
      destruct t3 as [|c4 t4]; [discriminate|].
      cbn [append prefix] in E.
      destruct (ascii_dec "x" c4) as [<-|]; [|discriminate].
      apply Hno. now exists EmptyString, t4.
    + now rewrite (IH Ht).
Qed.

(** X15: where the uploaded name carries ".xlsx" only as its extension, the
    suggested name is the pattern around the rest of the name. *)
Lemma output_filename_plain (base : string) :
  ~ occurs ".xlsx" base ->
  output_filename (base ++ ".xlsx")%string
  = ("mrp_labels_" ++ base ++ ".pdf")%string.
Proof.
  intros H. unfold output_filename.
  now rewrite (replace_without_occurrence base H).
Qed.

(** C8: the script does not take the extension off the uploaded name, it
    deletes every ".xlsx" in it: for the upload "orders.xlsx.xlsx", whose name
    without the extension is "orders.xlsx", it suggests "mrp_labels_orders.pdf"
    and not "mrp_labels_orders.xlsx.pdf". *)
Theorem output_filename_deletes_every_xlsx :
  output_filename "orders.xlsx.xlsx" = "mrp_labels_orders.pdf"%string
  /\ output_filename "orders.xlsx.xlsx"
     <> ("mrp_labels_" ++ "orders.xlsx" ++ ".pdf")%string.
Proof. split; [reflexivity | discriminate]. Qed.

(** ** The properties on sample inputs *)

(** A whole run: rows 2 and 4 of the sheet are merged, the blank row 3 is
    dropped, row 5 is skipped and row 6 is reported. *)
Example app_full_workbook :
  app sample_int sample_store (Some full_workbook) true =
  Complete
    {| merger := ["label 7413"; "label 7413"; "label 7413"; "label 55"]%string;
       total_pages := 4;
       processed_items := 2;
       missing_pdfs := [];
       errors :=
         ["Row 6: invalid literal for int() with base 10: 'n/a'"%string] |}
    "mrp_labels_orders.pdf" true.
Proof. reflexivity. Qed.

(** The three sample rows against the sample folder: no row raises, and the
    four pages are the 3 + 1 of the two rows that are merged. *)
Lemma total_pages_is_sum_of_quantities_witness :
  errors (process_rows sample_int sample_store sample_rows initial_state) = []
  /\ total_pages (process_rows sample_int sample_store sample_rows initial_state)
     = sum (map int_quantity
              (filter (fun r => positive_quantity r
                                && label_found sample_int sample_store r)
                      sample_rows))
  /\ total_pages (process_rows sample_int sample_store sample_rows initial_state)
     = 4.
Proof.
  split; [reflexivity|]. split; [|reflexivity].
  apply (total_pages_is_sum_of_quantities sample_int sample_store sample_rows).
  reflexivity.
Defined.



(** A variation id of 55 names the file; a variation id of 0 leaves it to
    the item id. *)
Lemma effective_id_selection_witness :
  use_id sample_int (sample_row 1 (Num 100) (Num 55) (Num 1)) = inr 55
  /\ use_id sample_int (sample_row 0 (Num 7413) (Num 0) (Num 3)) = inr 7413.
Proof.
  split.
  - apply (proj1 (effective_id_selection sample_int
                    (sample_row 1 (Num 100) (Num 55) (Num 1)))).
    + discriminate.
    + intros x Hx. injection Hx as <-. discriminate.
  - apply (proj2 (effective_id_selection sample_int
                    (sample_row 0 (Num 7413) (Num 0) (Num 3)))).
    right. exists 0%Q. split; reflexivity.
Defined.

(** The third sample row has quantity 0. *)
Lemma nonpositive_quantity_skips_row_witness :
  try_body sample_int sample_store (sample_row 2 (Num 9) (Num 0) (Num 0))
    initial_state = (Continue, initial_state)
  /\ process_row sample_int sample_store
       (sample_row 2 (Num 9) (Num 0) (Num 0)) initial_state = initial_state.
Proof.
  apply (nonpositive_quantity_skips_row sample_int sample_store).
  right. exists 0%Q. split; [reflexivity | discriminate].
Defined.



(** The workbook with the sheets "Sheet1" and "Data". *)
Lemma missing_sheet_stops_run_witness :
  app sample_int sample_store (Some sample_workbook) true =
  Stopped
    [st_error "❌ Error: Sheet 'Item Summary' not found in the Excel file!";
     st_info "Available sheets: Sheet1, Data"].
Proof.
  apply (missing_sheet_stops_run sample_int sample_store sample_workbook true).
  simpl. intros [H | [H | []]]; discriminate.
Defined.

(** Half a label. *)
Lemma fractional_quantity_counts_as_processed_witness :
  process_row sample_int sample_store
    (sample_row 0 (Num 7413) (Num 0) (Num (1 # 2))) initial_state
  = {| merger := [];
       total_pages := 0;
       processed_items := 1;
       missing_pdfs := [];
       errors := [] |}.
Proof.
  apply (fractional_quantity_counts_as_processed sample_int sample_store
           (sample_row 0 (Num 7413) (Num 0) (Num (1 # 2))) (1 # 2) 7413
           initial_state); reflexivity.
Defined.

(** Five copies asked for where the merger takes two. *)
Lemma partial_merge_is_kept_witness :
  process_row sample_int full_store
    (sample_row 0 (Num 7413) (Num 0) (Num 5)) initial_state
  = {| merger := ["label 7413"%string; "label 7413"%string];
       total_pages := 2;
       processed_items := 0;
       missing_pdfs := [];
       errors :=
         ["Row 2: [Errno 24] Too many open files: 'mrp_label/7413.pdf'"%string]
    |}.
Proof.
  apply (partial_merge_is_kept sample_int full_store
           (sample_row 0 (Num 7413) (Num 0) (Num 5)) 5 7413 2
           "[Errno 24] Too many open files: 'mrp_label/7413.pdf'"
           initial_state).
  - reflexivity.
  - reflexivity.
  - reflexivity.
  - reflexivity.
  - vm_compute. lia.
  - intros j Hj.
    destruct j as [|[|j]]; [reflexivity | reflexivity | lia].
  - reflexivity.
Defined.

(** * The accounts of a run *)

Section Accounts.

Variable int_of_str : string -> string + Z.
Variable store : label_store.

Local Abbreviation use_id := (use_id int_of_str).
Local Abbreviation try_body := (try_body int_of_str store).
Local Abbreviation process_row := (process_row int_of_str store).
Local Abbreviation process_rows := (process_rows int_of_str store).
Local Abbreviation merged_row := (merged_row int_of_str store).
Local Abbreviation missing_id := (missing_id int_of_str store).
Local Abbreviation row_block := (row_block int_of_str store).
Local Abbreviation row_step := (row_step int_of_str store).
Local Abbreviation merge_once id :=
  (merger_append store id ;;; incr_total_pages).

(** The quantity loop, with the reason it stopped early. *)
Lemma merge_loop_outcome (id : Z) (n : nat) :
  forall s,
    for_range n (merge_once id) s =
      (Ret tt,
       {| merger := merger s ++ copies n (pdf_pages store id);
          total_pages := total_pages s + Z.of_nat n;
          processed_items := processed_items s;
          missing_pdfs := missing_pdfs s;
          errors := errors s |})
    \/ exists k e,
         (k < n)%nat /\
         append_failure store (merger s ++ copies k (pdf_pages store id)) id
         = Some e /\
         for_range n (merge_once id) s =
           (Raise e,
            {| merger := merger s ++ copies k (pdf_pages store id);
               total_pages := total_pages s + Z.of_nat k;
               processed_items := processed_items s;
               missing_pdfs := missing_pdfs s;
               errors := errors s |}).
Proof.
  intros s.
  assert (H : (forall j, (j < n)%nat ->
                 append_failure store
                   (merger s ++ copies j (pdf_pages store id)) id = None)
              \/ exists k e, (k < n)%nat /\
                   (forall j, (j < k)%nat ->
                      append_failure store
                        (merger s ++ copies j (pdf_pages store id)) id = None)
                   /\ append_failure store
                        (merger s ++ copies k (pdf_pages store id)) id = Some e).
  { clear. induction n as [|n IH].
    - left. intros j Hj. lia.
    - destruct IH as [Hall | (k & e & Hk & Hok & Hfail)].
      + destruct (append_failure store
                    (merger s ++ copies n (pdf_pages store id)) id)
          as [e|] eqn:E.
        * right. exists n, e. repeat split; auto.
        * left. intros j Hj.
          destruct (Nat.eq_dec j n) as [->|]; [exact E | apply Hall; lia].
      + right. exists k, e. repeat split; auto. }
  destruct H as [Hall | (k & e & Hk & Hok & Hfail)].
  - left. now apply merge_loop_succeeds.
  - right. exists k, e. repeat split; auto.
    now apply merge_loop_fails.
Qed.

Lemma positive_not_skipped (r : row) :
  positive_quantity r = true -> skipped_row r = false.
Proof.
  unfold positive_quantity, skipped_row.
  destruct (quantity r); try discriminate.
  now destruct (Qle_bool q 0).
Qed.

Lemma skipped_not_positive (r : row) :
  skipped_row r = true -> positive_quantity r = false.
Proof.
  unfold positive_quantity, skipped_row.
  destruct (quantity r); try discriminate; auto.
  now intros ->.
Qed.

(** Every iteration is one of the five outcomes. *)
Lemma process_row_step (r : row) (s : merge_state) :
  row_step r s (process_row r s).
Proof.
  unfold process_row.
  destruct (quantity r) as [|x|t] eqn:Hq.
  - unfold try_body. rewrite Hq. simpl.
    apply step_skipped. unfold skipped_row. now rewrite Hq.
  - destruct (Qle_bool x 0) eqn:Hx.
    + unfold try_body. rewrite Hq.
      unfold skip_quantity, le0. simpl isna. cbv iota. rewrite Hx. simpl.
      apply step_skipped. unfold skipped_row. now rewrite Hq.
    + assert (Hpos : positive_quantity r = true).
      { unfold positive_quantity. now rewrite Hq, Hx. }
      assert (Hint : int_quantity r = truncate x).
      { unfold int_quantity. now rewrite Hq. }
      destruct (use_id r) as [e|id] eqn:Hid.
      * unfold try_body. rewrite Hq.
        unfold skip_quantity, le0. simpl isna. cbv iota. rewrite Hx.
        unfold bind, eval, ret, raise. simpl. rewrite Hid. simpl.
        apply step_raised; [now apply positive_not_skipped | now right].
      * rewrite (try_body_positive int_of_str store r x id s Hq Hx Hid).
        destruct (pdf_exists store id) eqn:Hex; simpl negb; cbv iota.
        -- rewrite bind_run.
           destruct (merge_loop_outcome id (Z.to_nat (truncate x)) s)
             as [-> | (k & e & Hk & Hfail & ->)].
           ++ unfold incr_processed_items, modify. simpl.
              rewrite <- Hint. now apply step_merged.
           ++ cbv beta iota. unfold errors_append.
              cbn [merger total_pages processed_items missing_pdfs errors].
              apply step_cut_short; auto. now rewrite Hint.
        -- unfold bind, missing_append, modify, continue_. simpl.
           now apply step_missing.
  - unfold try_body. rewrite Hq. unfold bind, eval, raise. simpl.
    apply step_raised.
    + unfold skipped_row. now rewrite Hq.
    + left. unfold positive_quantity. now rewrite Hq.
Qed.

Lemma row_step_missing (r : row) (s s' : merge_state) :
  row_step r s s' -> missing_pdfs s' = missing_pdfs s ++ missing_id r.
Proof.
  unfold missing_id.
  intros [Hs | e Hs [Hp | Hid] | id Hp Hid Hex | id Hp Hid Hex
          | id k e Hp Hid Hex Hk Hfail]; simpl.
  - rewrite (skipped_not_positive r Hs). now rewrite app_nil_r.
  - rewrite Hp. now rewrite app_nil_r.
  - rewrite Hid. destruct (positive_quantity r); now rewrite app_nil_r.
  - now rewrite Hp, Hid, Hex.
  - rewrite Hp, Hid, Hex. now rewrite app_nil_r.
  - rewrite Hp, Hid, Hex. now rewrite app_nil_r.
Qed.


Lemma row_step_account (r : row) (s s' : merge_state) :
  row_step r s s' ->
  processed_items s' + Z.of_nat (List.length (missing_pdfs s'))
  + Z.of_nat (List.length (errors s'))
  + (if skipped_row r then 1 else 0)
  = processed_items s + Z.of_nat (List.length (missing_pdfs s))
    + Z.of_nat (List.length (errors s)) + 1.
Proof.
  intros [Hs | e Hs _ | id Hp Hid Hex | id Hp Hid Hex
          | id k e Hp Hid Hex Hk Hfail]; simpl;
    try rewrite (positive_not_skipped r Hp); try rewrite Hs;
    rewrite ?length_app; simpl; lia.
Qed.

Lemma process_rows_account (df : list row) :
  forall s,
    processed_items (process_rows df s)
    + Z.of_nat (List.length (missing_pdfs (process_rows df s)))
    + Z.of_nat (List.length (errors (process_rows df s)))
    + Z.of_nat (List.length (filter skipped_row df))
    = processed_items s + Z.of_nat (List.length (missing_pdfs s))
      + Z.of_nat (List.length (errors s)) + Z.of_nat (List.length df).
Proof.
  induction df as [|r df IH]; intros s.
  - simpl. lia.
  - rewrite process_rows_cons.
    pose proof (IH (process_row r s)) as H1.
    pose proof (row_step_account r s _ (process_row_step r s))
      as H2.
    simpl filter. simpl List.length at 4.
    destruct (skipped_row r); simpl List.length; lia.
Qed.


Lemma copies_flat_map (id : Z) (k : nat) :
  copies k (pdf_pages store id) = flat_map (pdf_pages store) (repeat id k).
Proof.
  induction k as [|k IH]; [reflexivity|].
  rewrite copies_S, IH. reflexivity.
Qed.

Lemma row_step_appended (r : row) (s s' : merge_state) :
  row_step r s s' ->
  exists ids,
    Forall (fun id => pdf_exists store id = true) ids /\
    merger s' = merger s ++ flat_map (pdf_pages store) ids /\
    total_pages s' = total_pages s + Z.of_nat (List.length ids).
Proof.
  intros [Hs | e Hs _ | id Hp Hid Hex | id Hp Hid Hex
          | id k e Hp Hid Hex Hk Hfail]; simpl.
  1-3: exists []; simpl; rewrite app_nil_r, Z.add_0_r; auto.
  - exists (repeat id (Z.to_nat (int_quantity r))).
    rewrite repeat_length, copies_flat_map. repeat split; auto.
    apply Forall_forall. intros i Hi. now rewrite (repeat_spec _ _ _ Hi).
  - exists (repeat id k).
    rewrite repeat_length, copies_flat_map. repeat split; auto.
    apply Forall_forall. intros i Hi. now rewrite (repeat_spec _ _ _ Hi).
Qed.

(** X3: whatever the rows and whatever fails, the merger grows only by whole
    label files that are in the folder, and [total_pages] counts those
    files, one per [append]: it is the number of pages only when every label
    file has one page. *)
Theorem merger_holds_whole_existing_files (df : list row) (s : merge_state) :
  exists ids,
    Forall (fun id => pdf_exists store id = true) ids /\
    merger (process_rows df s) = merger s ++ flat_map (pdf_pages store) ids /\
    total_pages (process_rows df s)
    = total_pages s + Z.of_nat (List.length ids).
Proof.
  revert s. induction df as [|r df IH]; intros s.
  - exists []. simpl. rewrite app_nil_r, Z.add_0_r. auto.
  - rewrite process_rows_cons.
    destruct (IH (process_row r s)) as (ids2 & F2 & M2 & T2).
    destruct (row_step_appended r s _ (process_row_step r s))
      as (ids1 & F1 & M1 & T1).
    exists (ids1 ++ ids2). split; [|split].
    + apply Forall_app. now split.
    + rewrite M2, M1, flat_map_app. now rewrite app_assoc.
    + rewrite T2, T1, length_app. lia.
Qed.

Lemma row_step_errors (r : row) (s s' : merge_state) :
  row_step r s s' ->
  errors s' = errors s \/ exists e, errors s' = errors s ++ [row_error (idx r) e].
Proof.
  intros [Hs | e Hs _ | id Hp Hid Hex | id Hp Hid Hex
          | id k e Hp Hid Hex Hk Hfail]; simpl; eauto.
Qed.

(** X4: every entry that a run adds to [errors] is the line
    "Row {idx + 2}: ..." of one of the rows of the frame. *)
Theorem error_entries_name_rows (df : list row) (s : merge_state) :
  exists added,
    errors (process_rows df s) = errors s ++ added /\
    Forall (fun m => exists r e, In r df /\
                       m = ("Row " ++ str_of_Z (idx r + 2) ++ ": " ++ e)%string)
           added.
Proof.
  revert s. induction df as [|r df IH]; intros s.
  - exists []. simpl. rewrite app_nil_r. auto.
  - rewrite process_rows_cons.
    destruct (IH (process_row r s)) as (l2 & E2 & F2).
    assert (F2' : Forall (fun m => exists r0 e, In r0 (r :: df) /\
                    m = ("Row " ++ str_of_Z (idx r0 + 2) ++ ": " ++ e)%string)
                    l2).
    { eapply Forall_impl; [|exact F2].
      intros m (r0 & e & Hin & ->). exists r0, e. split; [now right | auto]. }
    destruct (row_step_errors r s _ (process_row_step r s))
      as [E1 | (e & E1)].
    + exists l2. rewrite E2, E1. auto.
    + exists (row_error (idx r) e :: l2). split.
      * rewrite E2, E1, <- app_assoc. reflexivity.
      * constructor; [|exact F2'].
        exists r, e. split; [now left | reflexivity].
Qed.

Lemma positive_int_quantity (r : row) :
  positive_quantity r = true -> 0 <= int_quantity r.
Proof.
  unfold positive_quantity, int_quantity.
  destruct (quantity r) as [|x|t]; try discriminate.
  intros H. apply negb_true_iff in H. now apply truncate_nonneg.
Qed.

Lemma row_step_reliable (r : row) (s s' : merge_state) :
  (forall held id, append_failure store held id = None) ->
  row_step r s s' ->
  merger s' = merger s ++ row_block r /\
  processed_items s'
  = processed_items s + (if merged_row r then 1 else 0) /\
  total_pages s'
  = total_pages s + (if merged_row r then int_quantity r else 0).
Proof.
  unfold row_block, merged_row, label_found.
  intros Hrel [Hs | e Hs [Hp | Hid] | id Hp Hid Hex | id Hp Hid Hex
               | id k e Hp Hid Hex Hk Hfail]; simpl.
  - rewrite (skipped_not_positive r Hs). simpl.
    rewrite app_nil_r. split; [auto | split; lia].
  - rewrite Hp. simpl. rewrite app_nil_r. split; [auto | split; lia].
  - rewrite Hid. destruct (positive_quantity r); simpl;
      rewrite app_nil_r; (split; [auto | split; lia]).
  - rewrite Hp, Hid, Hex. simpl. rewrite app_nil_r.
    split; [auto | split; lia].
  - rewrite Hp, Hid, Hex. simpl.
    pose proof (positive_int_quantity r Hp).
    split; [auto | split; lia].
  - rewrite Hrel in Hfail. discriminate.
Qed.


End Accounts.

(** * The sheet and its headers *)

Lemma lower_app (a b : string) :
  lower (a ++ b)%string = (lower a ++ lower b)%string.
Proof.
  induction a as [|c a IH]; [reflexivity|]. simpl. now rewrite IH.
Qed.

Lemma lower_ascii_space (c : ascii) : is_space c = true -> lower_ascii c = c.
Proof.
  unfold is_space, lower_ascii. intros H.
  destruct (65 <=? nat_of_ascii c)%nat eqn:E; [|reflexivity].
  apply Nat.leb_le in E.
  apply orb_true_iff in H. destruct H as [H | H];
    apply andb_true_iff in H; destruct H as [_ H];
    apply Nat.leb_le in H; lia.
Qed.

Lemma lower_all_space (l : string) : all_space l = true -> lower l = l.
Proof.
  induction l as [|c l IH]; [reflexivity|]. simpl. intros H.
  apply andb_true_iff in H. destruct H as [Hc Hl].
  now rewrite (lower_ascii_space c Hc), (IH Hl).
Qed.

Lemma lstrip_all_space (l : string) : all_space l = true -> lstrip l = ""%string.
Proof.
  induction l as [|c l IH]; [reflexivity|]. simpl. intros H.
  apply andb_true_iff in H. destruct H as [Hc Hl]. now rewrite Hc, (IH Hl).
Qed.

Lemma lstrip_space_app (l s : string) :
  all_space l = true -> lstrip (l ++ s)%string = lstrip s.
Proof.
  induction l as [|c l IH]; [reflexivity|]. simpl. intros H.
  apply andb_true_iff in H. destruct H as [Hc Hl]. now rewrite Hc, (IH Hl).
Qed.

Lemma rstrip_all_space (r : string) : all_space r = true -> rstrip r = ""%string.
Proof.
  induction r as [|c r IH]; [reflexivity|]. simpl. intros H.
  apply andb_true_iff in H. destruct H as [Hc Hr]. now rewrite (IH Hr), Hc.
Qed.

Lemma rstrip_app_space (s r : string) :
  all_space r = true -> rstrip (s ++ r)%string = rstrip s.
Proof.
  intros H. induction s as [|c s IH].
  - simpl. now apply rstrip_all_space.
  - simpl. now rewrite IH.
Qed.

Lemma strip_app_space (s r : string) :
  all_space r = true -> strip (s ++ r)%string = strip s.
Proof.
  unfold strip. intros H. induction s as [|c s IH].
  - simpl. now rewrite (lstrip_all_space r H).
  - simpl. destruct (is_space c); [exact IH|].
    now apply (rstrip_app_space (String c s)).
Qed.

Lemma append_assoc (a b c : string) :
  ((a ++ b) ++ c)%string = (a ++ (b ++ c))%string.
Proof.
  induction a as [|x a IH]; [reflexivity|]. simpl. now rewrite IH.
Qed.


Lemma find_rev_last {A} (f : A -> bool) (l : list A) (x : A) :
  find f (rev l) = Some x ->
  exists before after,
    l = before ++ x :: after /\ f x = true /\
    forall y, In y after -> f y = false.
Proof.
  induction l as [|a l IH] using rev_ind; [discriminate|].
  rewrite rev_app_distr. simpl. destruct (f a) eqn:Fa.
  - intros [= ->]. exists l, []. repeat split; auto. intros y [].
  - intros H. destruct (IH H) as (before & after & -> & Fx & Hafter).
    exists before, (after ++ [a]). split; [|split]; auto.
    + now rewrite <- app_assoc.
    + intros y Hy. apply in_app_or in Hy. destruct Hy as [Hy | [<- | []]]; auto.
Qed.

(** X7: the header that a required column is matched to is a header of the
    sheet with that key, and when several headers have the key it is the
    last of them. *)
Theorem column_mapping_takes_last_match (cols : list string) (key col : string) :
  column_mapping cols key = Some col ->
  exists before after,
    cols = before ++ col :: after /\
    strip (lower col) = key /\
    forall c, In c after -> strip (lower c) <> key.
Proof.
  unfold column_mapping. intros H.
  destruct (find_rev_last _ cols col H) as (before & after & -> & Hx & Hafter).
  exists before, after. split; [reflexivity|]. split.
  - now apply String.eqb_eq.
  - intros c Hc. apply String.eqb_neq. now apply Hafter.
Qed.

Lemma column_mapping_none (cols : list string) (key : string) :
  column_mapping cols key = None <->
  forall col, In col cols -> strip (lower col) <> key.
Proof.
  unfold column_mapping. split.
  - intros H col Hin. apply String.eqb_neq.
    apply (find_none _ _ H). now apply in_rev in Hin.
  - intros H. destruct (find _ (rev cols)) as [c|] eqn:E; [|reflexivity].
    apply find_some in E. destruct E as [Hin Heq].
    apply in_rev in Hin. apply String.eqb_eq in Heq.
    now contradiction (H c Hin).
Qed.

(** X8: a required column is reported missing exactly when no header of the
    sheet has its key. *)
Theorem missing_columns_are_the_unmatched (cols : list string) (display : string) :
  In display (missing_columns cols) <->
  exists key,
    In (key, display) required_columns /\
    forall col, In col cols -> strip (lower col) <> key.
Proof.
  unfold missing_columns. rewrite in_map_iff. split.
  - intros ([key d] & Hd & Hin). simpl in Hd. subst d.
    apply filter_In in Hin. destruct Hin as [Hreq Hnone]. simpl in Hnone.
    exists key. split; [exact Hreq|].
    apply column_mapping_none.
    now destruct (column_mapping cols key).
  - intros (key & Hreq & Hnone).
    exists (key, display). split; [reflexivity|].
    apply filter_In. split; [exact Hreq|]. simpl.
    apply column_mapping_none in Hnone. now rewrite Hnone.
Qed.

(** * The frame and its labels *)

Lemma rows_from_In (cols : list string) (d : list (list cell)) :
  forall (i : Z) (r : row),
    In r (rows_from cols i d) <->
    exists k cells,
      nth_error d k = Some cells /\
      r = {| idx := i + Z.of_nat k;
             item_id := cell_of cols "item id" cells;
             variation_id := cell_of cols "variation id" cells;
             quantity := cell_of cols "quantity" cells |}.
Proof.
  induction d as [|c d IH]; intros i r; simpl.
  - split; [intros [] | intros ([|k] & cells & H & _); discriminate].
  - rewrite IH. split.
    + intros [<- | (k & cells & Hk & ->)].
      * exists O, c. split; [reflexivity|]. now rewrite Z.add_0_r.
      * exists (S k), cells. split; [exact Hk|]. f_equal. lia.
    + intros ([|k] & cells & Hk & ->).
      * left. injection Hk as <-. now rewrite Z.add_0_r.
      * right. exists k, cells. split; [exact Hk|]. f_equal. lia.
Qed.

Lemma rows_from_length (cols : list string) (d : list (list cell)) :
  forall i, List.length (rows_from cols i d) = List.length d.
Proof.
  induction d as [|c d IH]; intros i; simpl; [reflexivity|]. now rewrite IH.
Qed.

Lemma rows_from_app (cols : list string) (d1 d2 : list (list cell)) :
  forall i,
    rows_from cols i (d1 ++ d2) =
    rows_from cols i d1 ++ rows_from cols (i + Z.of_nat (List.length d1)) d2.
Proof.
  induction d1 as [|c d1 IH]; intros i.
  - simpl. now rewrite Z.add_0_r.
  - simpl. rewrite IH. do 3 f_equal. lia.
Qed.

(** X9: the frame the loop runs over holds exactly the lines of the sheet
    that have a cell in one of the three columns, and each row keeps as its
    label the position of its line: the label is not renumbered when blank
    lines are dropped, so "Row {idx + 2}" is the line's number in the
    spreadsheet. *)
Theorem frame_rows_keep_their_sheet_position
    (cols : list string) (data : list (list cell)) (r : row) :
  In r (dropna (rows_from cols 0 data)) <->
  exists k cells,
    nth_error data k = Some cells /\
    r = {| idx := Z.of_nat k;
           item_id := cell_of cols "item id" cells;
           variation_id := cell_of cols "variation id" cells;
           quantity := cell_of cols "quantity" cells |} /\
    blank_row r = false.
Proof.
  unfold dropna. rewrite filter_In, rows_from_In. fold (blank_row r). split.
  - intros ((k & cells & Hk & Hr) & Hb). exists k, cells.
    repeat split; auto. now apply negb_true_iff.
  - intros (k & cells & Hk & Hr & Hb). split.
    + now exists k, cells.
    + now apply negb_true_iff.
Qed.

Lemma Zpos_of_nat (n : nat) : (0 < n)%nat -> Zpos (Pos.of_nat n) = Z.of_nat n.
Proof.
  intros H. rewrite <- (positive_nat_Z (Pos.of_nat n)).
  rewrite Nat2Pos.id; [reflexivity | lia].
Qed.

Lemma dropna_nothing (l : list row) :
  (forall r, In r l -> blank_row r = false) -> dropna l = l.
Proof.
  unfold dropna. induction l as [|a l IH]; intros H; [reflexivity|].
  simpl. fold (blank_row a). rewrite (H a (or_introl eq_refl)). simpl.
  f_equal. apply IH. intros r Hr. apply H. now right.
Qed.

Lemma dropna_length_le (l : list row) :
  (List.length (dropna l) <= List.length l)%nat.
Proof.
  unfold dropna. induction l as [|a l IH]; simpl; [lia|].
  destruct (negb _); simpl; lia.
Qed.

Lemma dropna_length_lt (l : list row) :
  (exists r, In r l /\ blank_row r = true) ->
  (List.length (dropna l) < List.length l)%nat.
Proof.
  intros (r & Hin & Hb). induction l as [|a l IH]; [contradiction|].
  pose proof (dropna_length_le l) as Hle.
  unfold dropna in *. simpl. fold (blank_row a).
  destruct Hin as [-> | Hin].
  - rewrite Hb. simpl. lia.
  - specialize (IH Hin). destruct (negb (blank_row a)); simpl; lia.
Qed.

(** X10: on a sheet with no blank line the value that line 124 computes for
    the progress bar at a row is a fraction above 0 and at most 1. *)
Theorem progress_is_a_fraction_without_blank_lines
    (cols : list string) (data : list (list cell)) (r : row) :
  (forall r', In r' (rows_from cols 0 data) -> blank_row r' = false) ->
  In r (dropna (rows_from cols 0 data)) ->
  (0 < progress r (dropna (rows_from cols 0 data)))%Q /\
  (progress r (dropna (rows_from cols 0 data)) <= 1)%Q.
Proof.
  intros Hfull Hin. rewrite (dropna_nothing _ Hfull) in *.
  apply rows_from_In in Hin. destruct Hin as (k & cells & Hk & ->).
  assert (Hlt : (k < List.length data)%nat).
  { apply nth_error_Some. rewrite Hk. discriminate. }
  unfold progress, Qlt, Qle. simpl.
  rewrite rows_from_length, Zpos_of_nat by lia. lia.
Qed.

(** X11: when a blank line is dropped above the last line of the sheet, the
    value that line 124 computes for the progress bar at that last row is
    above 1: the numerator is the row's label, which [dropna] leaves as it
    was, and the denominator is the number of rows that are left. *)
Theorem progress_exceeds_one_after_blank_line
    (cols : list string) (above : list (list cell)) (cells : list cell)
    (r : row) :
  r = {| idx := Z.of_nat (List.length above);
         item_id := cell_of cols "item id" cells;
         variation_id := cell_of cols "variation id" cells;
         quantity := cell_of cols "quantity" cells |} ->
  blank_row r = false ->
  (exists b, In b (rows_from cols 0 above) /\ blank_row b = true) ->
  In r (dropna (rows_from cols 0 (above ++ [cells]))) /\
  (1 < progress r (dropna (rows_from cols 0 (above ++ [cells]))))%Q.
Proof.
  intros Hr Hb Hblank.
  assert (Hdf : dropna (rows_from cols 0 (above ++ [cells])) =
                dropna (rows_from cols 0 above) ++ [r]).
  { rewrite rows_from_app. simpl. rewrite <- Hr.
    unfold dropna. rewrite filter_app. simpl. fold (blank_row r).
    now rewrite Hb. }
  rewrite Hdf. split.
  - apply in_or_app. right. now left.
  - pose proof (dropna_length_lt _ Hblank) as Hlt.
    rewrite rows_from_length in Hlt.
    unfold progress, Qlt. simpl Qnum. simpl Qden.
    rewrite length_app. simpl List.length.
    rewrite Zpos_of_nat by lia. rewrite Hr. simpl idx. lia.
Qed.

(** * The script as a whole *)

Section Script.

Variable int_of_str : string -> string + Z.
Variable store : label_store.

Local Abbreviation process_rows := (process_rows int_of_str store).
Local Abbreviation app := (app int_of_str store).

Lemma mem_In (x : string) (l : list string) : mem x l = true <-> In x l.
Proof.
  unfold mem. rewrite existsb_exists. split.
  - intros (y & Hin & Heq). apply String.eqb_eq in Heq. now subst.
  - intros H. exists x. split; [exact H | apply String.eqb_refl].
Qed.

(** X12: the script merges only when every check has passed: a completed
    run means the sheet "Item Summary" is there, none of the three columns
    is missing, the button was pressed and the label folder exists; its
    accumulators are those of the row loop run from the empty state over the
    sheet's lines without the blank ones, the name is the one of lines
    132-133, and the download is offered exactly when [total_pages] is above
    zero. *)
Theorem completed_run_passed_every_check
    (f : upload) (button : bool) (s : merge_state) (fn : string) (dl : bool) :
  app (Some f) button = Complete s fn dl ->
  In "Item Summary"%string (sheet_names f) /\
  missing_columns (columns (read_excel f "Item Summary")) = [] /\
  button = true /\
  folder_exists store = true /\
  s = process_rows
        (dropna (rows_from (columns (read_excel f "Item Summary")) 0
                   (data (read_excel f "Item Summary"))))
        initial_state /\
  fn = output_filename (name f) /\
  (dl = true <-> 0 < total_pages s).
Proof.
  unfold app.
  destruct (mem "Item Summary" (sheet_names f)) eqn:Hs; simpl negb; cbv iota;
    [|discriminate].
  destruct (missing_columns (columns (read_excel f "Item Summary")))
    as [|m ms] eqn:Hc; [|discriminate].
  destruct button; simpl negb; cbv iota; [|discriminate].
  destruct (folder_exists store) eqn:Hf; simpl negb; cbv iota; [|discriminate].
  intros H. injection H as <- <- <-.
  repeat split; auto.
  - now apply mem_In.
  - apply Z.ltb_lt.
  - apply Z.ltb_lt.
Qed.

(** X13: when a completed run offers no download, nothing was merged: the
    merged document is empty and [total_pages] is 0. *)
Theorem no_download_means_nothing_merged
    (f : upload) (button : bool) (s : merge_state) (fn : string) :
  app (Some f) button = Complete s fn false ->
  merger s = [] /\ total_pages s = 0.
Proof.
  intros H.
  destruct (completed_run_passed_every_check f button s fn false H)
    as (_ & _ & _ & _ & Hs & _ & Hdl).
  destruct (merger_holds_whole_existing_files int_of_str store
              (dropna (rows_from (columns (read_excel f "Item Summary")) 0
                         (data (read_excel f "Item Summary"))))
              initial_state) as (ids & _ & Hm & Ht).
  rewrite <- Hs in Hm, Ht. simpl in Hm, Ht.
  assert (Hz : ~ 0 < total_pages s).
  { intros Hpos. apply Hdl in Hpos. discriminate. }
  assert (Hids : ids = []).
  { destruct ids; [reflexivity | simpl in Ht; lia]. }
  subst ids. simpl in Hm, Ht. split; [exact Hm | lia].
Qed.

End Script.

(** * Identifiers at the edge *)

Lemma truncate_small (x : Q) : (-1 < x)%Q -> (x < 1)%Q -> truncate x = 0.
Proof.
  unfold Qlt, truncate. simpl. intros Hlo Hhi.
  destruct (Z.le_gt_cases 0 (Qnum x)) as [Hpos | Hneg].
  - apply Z.quot_small. lia.
  - rewrite <- (Z.opp_involutive (Qnum x)).
    rewrite Z.quot_opp_l by lia.
    rewrite Z.quot_small; lia.
Qed.

(** X14: the variation id is compared with 0 before it is truncated: a
    variation cell holding a fraction other than 0 between -1 and 1 is taken,
    not the item id, and the label looked for is [0.pdf]. *)
Theorem fractional_variation_resolves_to_zero
    (int_of_str : string -> string + Z) (r : row) (x : Q) :
  variation_id r = Num x ->
  ~ (x == 0)%Q -> (-1 < x)%Q -> (x < 1)%Q ->
  use_id int_of_str r = inr 0.
Proof.
  intros Hv Hnz Hlo Hhi. unfold use_id. rewrite Hv. simpl.
  destruct (Qeq_bool x 0) eqn:E.
  - apply Qeq_bool_iff in E. contradiction.
  - simpl. now rewrite (truncate_small x Hlo Hhi).
Qed.

(** ** The further properties on sample inputs *)



Lemma column_mapping_takes_last_match_witness :
  exists before after,
    ["Item ID"; "Name"; "item id "]%string
    = before ++ "item id "%string :: after /\
    strip (lower "item id ") = "item id"%string /\
    forall c, In c after -> strip (lower c) <> "item id"%string.
Proof.
  apply (column_mapping_takes_last_match
           ["Item ID"; "Name"; "item id "]%string "item id" "item id ").
  reflexivity.
Defined.

Lemma progress_is_a_fraction_without_blank_lines_witness :
  (0 < progress (sample_row 1 (Num 100) (Num 55) (Num 1))
         (dropna (rows_from (columns item_summary) 0 filled_lines)))%Q
  /\ (progress (sample_row 1 (Num 100) (Num 55) (Num 1))
        (dropna (rows_from (columns item_summary) 0 filled_lines)) <= 1)%Q.
Proof.
  apply (progress_is_a_fraction_without_blank_lines
           (columns item_summary) filled_lines
           (sample_row 1 (Num 100) (Num 55) (Num 1))).
  - intros r' [<- | [<- | []]]; reflexivity.
  - right. left. reflexivity.
Defined.

(** The sample sheet has a blank third line: after its sixth line, the fifth
    row of the frame, the progress bar is handed 5/4. *)
Lemma progress_exceeds_one_after_blank_line_witness :
  In (sample_row 4 (Str "n/a") NaN (Num (5 # 2)))
     (dropna (rows_from (columns item_summary) 0 (data item_summary)))
  /\ (1 < progress (sample_row 4 (Str "n/a") NaN (Num (5 # 2)))
            (dropna (rows_from (columns item_summary) 0 (data item_summary))))%Q
  /\ progress (sample_row 4 (Str "n/a") NaN (Num (5 # 2)))
       (dropna (rows_from (columns item_summary) 0 (data item_summary)))
     = (5 # 4)%Q.
Proof.
  split; [|split; [|reflexivity]];
    apply (progress_exceeds_one_after_blank_line
             (columns item_summary)
             [[Num 7413; Str "tea"; Num 0; Num 3];
              [NaN; NaN; NaN; NaN];
              [Num 100; Str "mug"; Num 55; Num 1];
              [Num 9; Str "cup"; Num 0; Num 0]]
             [Str "n/a"; Str "pot"; NaN; Num (5 # 2)]
             (sample_row 4 (Str "n/a") NaN (Num (5 # 2))));
    try reflexivity;
    (exists (sample_row 1 NaN NaN NaN); split;
       [right; left; reflexivity | reflexivity]).
Defined.

Lemma completed_run_passed_every_check_witness :
  In "Item Summary"%string (sheet_names full_workbook)
  /\ missing_columns (columns (read_excel full_workbook "Item Summary")) = []
  /\ true = true
  /\ folder_exists sample_store = true
  /\ full_workbook_state
     = process_rows sample_int sample_store
         (dropna (rows_from (columns (read_excel full_workbook "Item Summary"))
                    0 (data (read_excel full_workbook "Item Summary"))))
         initial_state
  /\ "mrp_labels_orders.pdf"%string = output_filename (name full_workbook)
  /\ (true = true <-> 0 < total_pages full_workbook_state).
Proof.
  apply (completed_run_passed_every_check sample_int sample_store
           full_workbook true full_workbook_state
           "mrp_labels_orders.pdf" true).
  reflexivity.
Defined.

Lemma no_download_means_nothing_merged_witness :
  merger {| merger := []; total_pages := 0; processed_items := 0;
            missing_pdfs := [100]; errors := [] |} = []
  /\ total_pages {| merger := []; total_pages := 0; processed_items := 0;
                    missing_pdfs := [100]; errors := [] |} = 0.
Proof.
  apply (no_download_means_nothing_merged sample_int sample_store
           unmatched_workbook true _ "mrp_labels_orders.pdf").
  reflexivity.
Defined.

Ltac no_occurrence H a :=
  repeat (destruct a as [|? a];
          [discriminate H | simpl in H; injection H as _ H]);
  destruct a; discriminate H.

Lemma output_filename_plain_witness :
  output_filename ("stock.v2" ++ ".xlsx")%string
  = ("mrp_labels_" ++ "stock.v2" ++ ".pdf")%string.
Proof.
  apply (output_filename_plain "stock.v2").
  intros (a & b & H). no_occurrence H a.
Defined.

Lemma fractional_variation_resolves_to_zero_witness :
  use_id sample_int (sample_row 0 (Num 7413) (Num (2 # 5)) (Num 1)) = inr 0.
Proof.
  apply (fractional_variation_resolves_to_zero sample_int
           (sample_row 0 (Num 7413) (Num (2 # 5)) (Num 1)) (2 # 5)).
  - reflexivity.
  - intros H. discriminate H.
  - reflexivity.
  - reflexivity.
Defined.
